(** * gradio/components/checkbox.py: the [Checkbox] component

  A shallow embedding of [gradio.components.checkbox.Checkbox]: its
  constructor and its two interpretation methods,
  [get_interpretation_neighbors] and [get_interpretation_scores].

  Python objects are modelled by an attribute dictionary, Python values by
  a small universe of the built-in kinds the component handles, and method
  bodies by a state-and-exception monad over the receiver [self]. *)

From Stdlib Require Import ZArith Floats.PrimFloat.
From stdpp Require Import base option list strings gmap.

Local Open Scope Z_scope.
Set Warnings "-register-all".

(** ** Python values *)

Module Py.

(** The values that reach the component: [None], booleans, integers,
    floats (interpretation scores), strings, lists, tuples, function
    objects (named by an identifier) and [gradio.blocks.Default]
    instances. *)
Inductive value : Type :=
| VNone
| VBool (b : bool)
| VInt (z : Z)
| VFloat (f : float)
| VStr (s : string)
| VList (l : list value)
| VTuple (l : list value)
| VCallable (name : string)
| VDefault (v : value).

(** Python dictionaries with string keys: keyword arguments, attribute
    dictionaries and the metadata mapping returned with the neighbors. *)
Abbreviation dict := (gmap string value).

(** Truth value testing, as performed by [if x:] and [not x].  [None],
    [False], numeric zero (also the float [-0.0]) and empty sequences are
    false; function objects are true, and so are [Default] instances, taken
    to be plain objects without [__bool__] or [__len__]. *)
Definition truthy (x : value) : bool :=
  match x with
  | VNone => false
  | VBool b => b
  | VInt z => negb (z =? 0)
  | VFloat f => negb (PrimFloat.eqb f 0%float)
  | VStr s => negb (String.eqb s "")
  | VList l | VTuple l => negb (Nat.eqb (length l) 0)
  | VCallable _ => true
  | VDefault _ => true
  end.

(** [not x] *)
Definition py_not (x : value) : value := VBool (negb (truthy x)).

Definition is_none (x : value) : bool :=
  match x with VNone => true | _ => false end.

(** [isinstance(x, Default)] *)
Definition is_default (x : value) : bool :=
  match x with VDefault _ => true | _ => false end.

(** An interpretation score is a number. *)
Definition is_score (x : value) : bool :=
  match x with VInt _ | VFloat _ => true | _ => false end.

(** The number of slots of a pair that hold something other than [None]. *)
Definition populated (pair : value * value) : nat :=
  (if is_none (fst pair) then 0 else 1) + (if is_none (snd pair) then 0 else 1).

(** A parameter value that is not a sentinel wrapped in a sentinel. *)
Definition not_nested (x : value) : bool :=
  match x with VDefault (VDefault _) => false | _ => true end.

(** Exceptions of the built-in operations. *)
Inductive exn : Type :=
| IndexError
| TypeError.

Inductive result (A : Type) : Type :=
| Ok (a : A)
| Raise (e : exn).
Arguments Ok {A} a.
Arguments Raise {A} e.

(** A method body: reads and writes the receiver's attribute dictionary
    and either returns or raises. *)
Definition M (A : Type) : Type := dict -> result A * dict.

#[global] Instance M_ret : MRet M :=
  fun A (a : A) self => (Ok a, self).

Definition raise {A} (e : exn) : M A := fun self => (Raise e, self).

#[global] Instance M_bind : MBind M :=
  fun A B (k : A -> M B) (m : M A) self =>
    match m self with
    | (Ok a, self') => k a self'
    | (Raise e, self') => (Raise e, self')
    end.

(** [self.name = v] *)
Definition setattr (name : string) (v : value) : M unit :=
  fun self => (Ok tt, <[name := v]> self).

(** [l[i]] for a non-negative literal index [i]: out of range raises
    [IndexError]. *)
Definition getitem (l : list value) (i : nat) : M value :=
  match l !! i with
  | Some v => mret v
  | None => raise IndexError
  end.

Definition returned {A} (r : result A * dict) : result A := fst r.
Definition final_self {A} (r : result A * dict) : dict := snd r.

End Py.

Import Py.

(** ** [gradio.blocks]: the use-default sentinel *)

Module Blocks.

(** Modelled from the spec: [gradio.blocks.Default] and [gradio.blocks.get]
    are imported by [checkbox.py] and defined elsewhere.  The spec describes
    an explicit use-default sentinel, distinct from an explicit value (also an
    explicit [None]), that carries the stated default; resolving a parameter
    yields the stated default for the sentinel and the supplied value
    otherwise.  [Default(v)] is [VDefault v]. *)
Definition get (default_or_value : value) : value :=
  match default_or_value with
  | VDefault v => v
  | v => v
  end.

End Blocks.

(** ** The component *)

Module Checkbox.

(** The twelve named parameters of [Checkbox.__init__] and its [**kwargs]. *)
Record params : Type := Params {
  value_ : value;
  label : value;
  info : value;
  every : value;
  show_label : value;
  container : value;
  scale : value;
  min_width : value;
  interactive : value;
  visible : value;
  elem_id : value;
  elem_classes : value;
  kwargs : dict;
}.

(** A call site: each named parameter is supplied or left out. *)
Record call : Type := Call {
  arg_value : option value;
  arg_label : option value;
  arg_info : option value;
  arg_every : option value;
  arg_show_label : option value;
  arg_container : option value;
  arg_scale : option value;
  arg_min_width : option value;
  arg_interactive : option value;
  arg_visible : option value;
  arg_elem_id : option value;
  arg_elem_classes : option value;
  arg_kwargs : dict;
}.

(** [Checkbox()]: nothing supplied. *)
Definition no_arguments : call :=
  Call None None None None None None None None None None None None ∅.

(** Binding a call to the signature: a parameter left out takes the default
    written in the [def] line. *)
Definition bind_signature (c : call) : params :=
  {| value_ := default (VDefault (VBool false)) (arg_value c);
     label := default (VDefault VNone) (arg_label c);
     info := default (VDefault VNone) (arg_info c);
     every := default (VDefault VNone) (arg_every c);
     show_label := default (VDefault VNone) (arg_show_label c);
     container := default (VDefault (VBool true)) (arg_container c);
     scale := default (VDefault VNone) (arg_scale c);
     min_width := default (VDefault (VInt 160)) (arg_min_width c);
     interactive := default (VDefault VNone) (arg_interactive c);
     visible := default (VDefault (VBool true)) (arg_visible c);
     elem_id := default (VDefault VNone) (arg_elem_id c);
     elem_classes := default (VDefault VNone) (arg_elem_classes c);
     kwargs := arg_kwargs c |}.

(** The keyword arguments of the call [IOComponent.__init__(self, ...)]:
    [value], [container], [scale], [min_width] and [visible] have been
    rebound to [get(...)] of themselves, the other parameters are passed as
    received. *)
Definition base_arguments (p : params) : params :=
  let value := Blocks.get (value_ p) in
  let container := Blocks.get (container p) in
  let scale := Blocks.get (scale p) in
  let min_width := Blocks.get (min_width p) in
  let visible := Blocks.get (visible p) in
  {| label := label p;
     info := info p;
     every := every p;
     show_label := show_label p;
     container := container;
     scale := scale;
     min_width := min_width;
     interactive := interactive p;
     visible := visible;
     elem_id := elem_id p;
     elem_classes := elem_classes p;
     value_ := value;
     kwargs := kwargs p |}.

(** The parameters by name, for statements that range over all of them. *)
Definition parameter_names : list string :=
  ["value"; "label"; "info"; "every"; "show_label"; "container"; "scale";
   "min_width"; "interactive"; "visible"; "elem_id"; "elem_classes"]%string.

Definition parameter (name : string) (p : params) : option value :=
  if String.eqb name "value" then Some (value_ p)
  else if String.eqb name "label" then Some (label p)
  else if String.eqb name "info" then Some (info p)
  else if String.eqb name "every" then Some (every p)
  else if String.eqb name "show_label" then Some (show_label p)
  else if String.eqb name "container" then Some (container p)
  else if String.eqb name "scale" then Some (scale p)
  else if String.eqb name "min_width" then Some (min_width p)
  else if String.eqb name "interactive" then Some (interactive p)
  else if String.eqb name "visible" then Some (visible p)
  else if String.eqb name "elem_id" then Some (elem_id p)
  else if String.eqb name "elem_classes" then Some (elem_classes p)
  else None.

(** The parameters [__init__] passes through [get]. *)
Definition resolved_names : list string :=
  ["value"; "container"; "scale"; "min_width"; "visible"]%string.

(** The parameters [__init__] hands on untouched. *)
Definition passed_on_names : list string :=
  ["label"; "info"; "every"; "show_label"; "interactive"; "elem_id";
   "elem_classes"]%string.

(** [Checkbox(value=True, label="Agree")] *)
Definition agree_call : call :=
  Call (Some (VBool true)) (Some (VStr "Agree")) None None None None None
    None None None None None ∅.

(** [Checkbox(value=f)] for a function [f] *)
Definition callable_call : call :=
  Call (Some (VCallable "f")) None None None None None None None None None
    None None ∅.

Section Init.

(** The initializers of the base classes are defined outside this file;
    the constructor is parametric in what they do to [self]. *)
Variable IOComponent___init__ : params -> M unit.
Variable NeighborInterpretable___init__ : M unit.

(** [def __init__(self, value=Default(False), *, label=..., **kwargs)].
    The line [self.select: EventListenerMethod] is an annotation without a
    value and assigns nothing. *)
Definition __init__ (c : call) : M unit :=
  let p := bind_signature c in
  IOComponent___init__ (base_arguments p);;
  NeighborInterpretable___init__.

End Init.

(** [def get_interpretation_neighbors(self, x): return [not x], {}] *)
Definition get_interpretation_neighbors (x : value)
  : M (list value * dict) :=
  mret ([py_not x], ∅).

(** [def get_interpretation_scores(self, x, neighbors, scores, **kwargs)]:
    the first slot is the score if the input is [False], the second the
    score if the input is [True]. *)
Definition get_interpretation_scores
    (x : value) (neighbors : list value) (scores : list value)
    (kwargs : dict) : M (value * value) :=
  if truthy x then
    s ← getitem scores 0; mret (s, VNone)
  else
    s ← getitem scores 0; mret (VNone, s).

(** The slot of a returned pair that stands for the input [b]: by the
    docstring of [get_interpretation_scores], the first for [False] and the
    second for [True]. *)
Definition slot (b : bool) (pair : value * value) : value :=
  if b then snd pair else fst pair.

(** The argument a call site gives for a named parameter: [Some None] when
    the parameter is left out, [None] for a name that is no parameter. *)
Definition argument (name : string) (c : call) : option (option value) :=
  if String.eqb name "value" then Some (arg_value c)
  else if String.eqb name "label" then Some (arg_label c)
  else if String.eqb name "info" then Some (arg_info c)
  else if String.eqb name "every" then Some (arg_every c)
  else if String.eqb name "show_label" then Some (arg_show_label c)
  else if String.eqb name "container" then Some (arg_container c)
  else if String.eqb name "scale" then Some (arg_scale c)
  else if String.eqb name "min_width" then Some (arg_min_width c)
  else if String.eqb name "interactive" then Some (arg_interactive c)
  else if String.eqb name "visible" then Some (arg_visible c)
  else if String.eqb name "elem_id" then Some (arg_elem_id c)
  else if String.eqb name "elem_classes" then Some (arg_elem_classes c)
  else None.

(** [Checkbox(value=None)] *)
Definition none_call : call :=
  Call (Some VNone) None None None None None None None None None None None ∅.

End Checkbox.

(** ** Running a method on a receiver *)

Ltac run_method :=
  unfold Checkbox.get_interpretation_neighbors,
    Checkbox.get_interpretation_scores, getitem, raise, returned, final_self;
  cbn [mbind mret M_bind M_ret fst snd lookup list_lookup].

(** Case analysis on membership in a literal list of parameter names. *)
Ltac each_name H :=
  repeat (apply elem_of_cons in H as [->|H]); [..|by apply elem_of_nil in H].

Example setattr_changes_self :
  final_self (setattr "value" (VBool true) ∅) ≠ ∅.
Proof.
  intros H. apply (f_equal (lookup "value"%string)) in H.
  unfold final_self, setattr in H. cbn [snd] in H.
  rewrite lookup_insert_eq, lookup_empty in H. discriminate H.
Qed.

Example neighbors_of_True (self : dict) :
  returned (Checkbox.get_interpretation_neighbors (VBool true) self)
  = Ok ([VBool false], ∅).
Proof. reflexivity. Qed.

Example scores_of_True (self : dict) :
  returned (Checkbox.get_interpretation_scores (VBool true) [VBool false]
              [VFloat 0.25%float] ∅ self)
  = Ok (VFloat 0.25%float, VNone).
Proof. reflexivity. Qed.

Example scores_of_negative_zero (self : dict) :
  returned (Checkbox.get_interpretation_scores (VFloat (-0)%float) []
              [VInt 3] ∅ self)
  = Ok (VNone, VInt 3).
Proof. reflexivity. Qed.

Example scores_of_empty (self : dict) :
  returned (Checkbox.get_interpretation_scores (VBool false) [] [] ∅ self)
  = Raise IndexError.
Proof. reflexivity. Qed.

(** The shape of every run of [get_interpretation_scores]: the receiver is
    returned as it was, and the outcome is decided by the truth value of
    [x] and the head of [scores]. *)
Lemma get_interpretation_scores_run
    (x : value) (neighbors scores : list value) (kwargs self : dict) :
  Checkbox.get_interpretation_scores x neighbors scores kwargs self
  = (match scores !! 0%nat with
     | Some s => Ok (if truthy x then (s, VNone) else (VNone, s))
     | None => Raise IndexError
     end, self).
Proof.
  run_method.
  destruct (truthy x); destruct scores as [|s rest]; reflexivity.
Qed.

(** ** Interpretation scores *)

Section Scores.

Variables (neighbors : list value) (kwargs self : dict).

(** C1, as amended: for every score [s], [get_interpretation_scores] with
    original value [True] and scores [[s]] returns [(s, None)], and with
    original value [False] and scores [[s]] returns [(None, s)]. *)
Theorem scores_slot_of_original (s : value) :
  returned (Checkbox.get_interpretation_scores (VBool true) neighbors [s]
              kwargs self) = Ok (s, VNone)
  ∧ returned (Checkbox.get_interpretation_scores (VBool false) neighbors [s]
                kwargs self) = Ok (VNone, s).
Proof. split; reflexivity. Qed.

(** C3: for every boolean original value [b] and every one-element score
    list [[s]], [get_interpretation_scores] returns a pair in which exactly
    one slot holds [s] and the other slot is [None]; the populated slot is
    the first when [b] is [True] and the second when [b] is [False]. *)
Theorem scores_exactly_one_slot (b : bool) (s : value) :
  is_score s = true →
  ∃ pair : value * value,
    returned (Checkbox.get_interpretation_scores (VBool b) neighbors [s]
                kwargs self) = Ok pair
    ∧ populated pair = 1%nat
    ∧ (if b then fst pair = s ∧ snd pair = VNone
       else fst pair = VNone ∧ snd pair = s).
Proof.
  intros Hs. rewrite get_interpretation_scores_run. cbn.
  destruct b; eexists; (split; [reflexivity|]); cbn;
    (split; [|split; reflexivity]);
    destruct s; try discriminate Hs; reflexivity.
Qed.

(** C9: [get_interpretation_scores] reads [scores[0]] on both branches: on
    the empty list it raises [IndexError] whatever [x] is, and on a
    non-empty list it returns a pair whatever [x] is. *)
Theorem scores_index_in_bounds (x : value) (scores : list value) :
  (scores = [] →
   returned (Checkbox.get_interpretation_scores x neighbors scores kwargs
               self) = Raise IndexError)
  ∧ (scores ≠ [] →
     ∃ pair : value * value,
       returned (Checkbox.get_interpretation_scores x neighbors scores kwargs
                   self) = Ok pair).
Proof.
  rewrite get_interpretation_scores_run. split.
  - intros ->. reflexivity.
  - intros Hne. destruct scores as [|s rest]; [done|]. cbn. eauto.
Qed.

End Scores.

(** C10: the outcome of [get_interpretation_scores] depends only on the
    truth value of [x] and on [scores[0]]: two calls that agree on these
    return the same, however they differ in [neighbors], in the later
    scores, in the keyword arguments and in the receiver. *)
Theorem scores_depend_on_truth_and_head
    (x x' : value) (neighbors neighbors' scores scores' : list value)
    (kwargs kwargs' self self' : dict) :
  truthy x = truthy x' →
  scores !! 0%nat = scores' !! 0%nat →
  returned (Checkbox.get_interpretation_scores x neighbors scores kwargs self)
  = returned (Checkbox.get_interpretation_scores x' neighbors' scores' kwargs'
                self').
Proof.
  intros Hx Hs. rewrite !get_interpretation_scores_run.
  unfold returned. cbn [fst]. rewrite Hx, Hs. reflexivity.
Qed.

(** Witness of [scores_exactly_one_slot]: original value [True], one score
    [0.25]. *)
Lemma scores_exactly_one_slot_witness :
  is_score (VFloat 0.25%float) = true
  ∧ ∃ pair : value * value,
      returned (Checkbox.get_interpretation_scores (VBool true) [VBool false]
                  [VFloat 0.25%float] ∅ ∅) = Ok pair
      ∧ populated pair = 1%nat
      ∧ fst pair = VFloat 0.25%float ∧ snd pair = VNone.
Proof.
  split; [reflexivity|].
  apply (scores_exactly_one_slot [VBool false] ∅ ∅ true (VFloat 0.25%float)).
  reflexivity.
Defined.

(** Witness of [scores_index_in_bounds]: a one-element score list. *)
Lemma scores_index_in_bounds_witness :
  [VFloat 0.5%float] ≠ []
  ∧ ∃ pair : value * value,
      returned (Checkbox.get_interpretation_scores (VBool false) [VBool true]
                  [VFloat 0.5%float] ∅ ∅) = Ok pair.
Proof.
  split; [discriminate|].
  apply (scores_index_in_bounds [VBool true] ∅ ∅ (VBool false)
           [VFloat 0.5%float]).
  discriminate.
Defined.

(** Witness of [scores_depend_on_truth_and_head]: two truthy originals, the
    same first score, everything else different. *)
Lemma scores_depend_on_truth_and_head_witness :
  returned (Checkbox.get_interpretation_scores (VBool true) [VBool false]
              [VFloat 0.5%float; VInt 7] ∅ ∅)
  = returned (Checkbox.get_interpretation_scores (VInt 2) []
                [VFloat 0.5%float] {[ "k"%string := VNone ]}
                {[ "label"%string := VStr "agree" ]}).
Proof.
  apply scores_depend_on_truth_and_head; reflexivity.
Defined.

(** C1, as the claim words it, fails: with original value [True] and
    scores [[0.25]] the score sits in the first slot, not in the second. *)
Lemma scores_slot_of_original_swapped_fails :
  ¬ (∀ s : value,
       returned (Checkbox.get_interpretation_scores (VBool true)
                   [VBool false] [s] ∅ ∅) = Ok (VNone, s)
       ∧ returned (Checkbox.get_interpretation_scores (VBool false)
                     [VBool true] [s] ∅ ∅) = Ok (s, VNone)).
Proof.
  intros H. destruct (H (VFloat 0.25%float)) as [HT _].
  vm_compute in HT. discriminate HT.
Qed.

(** ** Interpretation neighbors *)

(** C2: for every boolean [b], [get_interpretation_neighbors] returns
    exactly one neighbor, the negation of [b], together with the empty
    mapping. *)
Theorem neighbors_is_negation (b : bool) (self : dict) :
  returned (Checkbox.get_interpretation_neighbors (VBool b) self)
  = Ok ([VBool (negb b)], ∅).
Proof. reflexivity. Qed.

(** ** Frame *)

(** C8: neither interpretation method assigns to a field of the widget:
    whatever the arguments, and whether the call returns or raises, the
    receiver after the call is the receiver before it. *)
Theorem interpretation_leaves_self
    (x : value) (neighbors scores : list value) (kwargs self : dict) :
  final_self (Checkbox.get_interpretation_neighbors x self) = self
  ∧ final_self (Checkbox.get_interpretation_scores x neighbors scores kwargs
                  self) = self.
Proof.
  split; [reflexivity|].
  rewrite get_interpretation_scores_run. reflexivity.
Qed.

(** ** Construction *)

(** What [__init__] does, for any base initializers: it calls
    [IOComponent.__init__] on [base_arguments] of the bound signature, then
    [NeighborInterpretable.__init__]. *)
Lemma init_calls_base
    (IOComponent_init : Checkbox.params → M unit)
    (NeighborInterpretable_init : M unit) (c : Checkbox.call) :
  Checkbox.__init__ IOComponent_init NeighborInterpretable_init c
  = IOComponent_init (Checkbox.base_arguments (Checkbox.bind_signature c))
      ≫= λ _, NeighborInterpretable_init.
Proof. reflexivity. Qed.

Example init_of_no_arguments :
  Checkbox.base_arguments (Checkbox.bind_signature Checkbox.no_arguments)
  = Checkbox.Params (VBool false) (VDefault VNone) (VDefault VNone)
      (VDefault VNone) (VDefault VNone) (VBool true) VNone (VInt 160)
      (VDefault VNone) (VBool true) (VDefault VNone) (VDefault VNone) ∅.
Proof. reflexivity. Qed.



(** C6, as amended: [__init__] resolves [value], [container], [scale],
    [min_width] and [visible] with [get] before it hands them to the base
    initializer, so that none of these is a sentinel there unless a sentinel
    was wrapped in a sentinel; it hands [label], [info], [every],
    [show_label], [interactive], [elem_id] and [elem_classes] on exactly as
    received. *)
Theorem init_resolves_five_and_passes_seven
    (c : Checkbox.call) (name : string) :
  (name ∈ Checkbox.resolved_names →
   ∃ v : value,
     Checkbox.parameter name (Checkbox.bind_signature c) = Some v
     ∧ Checkbox.parameter name
         (Checkbox.base_arguments (Checkbox.bind_signature c))
       = Some (Blocks.get v)
     ∧ (not_nested v = true → is_default (Blocks.get v) = false))
  ∧ (name ∈ Checkbox.passed_on_names →
     Checkbox.parameter name
       (Checkbox.base_arguments (Checkbox.bind_signature c))
     = Checkbox.parameter name (Checkbox.bind_signature c)
     ∧ is_Some (Checkbox.parameter name (Checkbox.bind_signature c))).
Proof.
  split; intros Hin.
  - each_name Hin; (eexists; split; [reflexivity|]; split; [reflexivity|]);
      intros Hn;
      match goal with
      | |- is_default (Blocks.get ?v) = false =>
          destruct v as [| | | | | | | |[]]; done
      end.
  - each_name Hin; (split; [reflexivity|]); by eexists.
Qed.



(** Witness of [init_resolves_five_and_passes_seven]: in
    [Checkbox(value=True, label="Agree")] the value is resolved and the
    label handed on. *)
Lemma init_resolves_five_and_passes_seven_witness :
  ("value"%string ∈ Checkbox.resolved_names
   ∧ ∃ v : value,
       Checkbox.parameter "value"
         (Checkbox.bind_signature Checkbox.agree_call) = Some v
       ∧ Checkbox.parameter "value"
           (Checkbox.base_arguments
              (Checkbox.bind_signature Checkbox.agree_call))
         = Some (Blocks.get v)
       ∧ (not_nested v = true → is_default (Blocks.get v) = false))
  ∧ ("label"%string ∈ Checkbox.passed_on_names
     ∧ Checkbox.parameter "label"
         (Checkbox.base_arguments
            (Checkbox.bind_signature Checkbox.agree_call))
       = Some (VStr "Agree")).
Proof.
  assert (Hv : "value"%string ∈ Checkbox.resolved_names) by constructor.
  assert (Hl : "label"%string ∈ Checkbox.passed_on_names) by constructor.
  split; (split; [assumption|]).
  - exact (proj1 (init_resolves_five_and_passes_seven Checkbox.agree_call
                    "value") Hv).
  - exact (proj1 (proj2 (init_resolves_five_and_passes_seven
                           Checkbox.agree_call "label") Hl)).
Defined.

(** C6, as the claim words it, fails: [Checkbox()] hands the sentinel
    [Default(None)] to the base initializer as [label]. *)
Lemma init_passes_sentinel_on :
  ¬ (∀ (c : Checkbox.call) (name : string) (v : value),
       name ∈ Checkbox.parameter_names →
       Checkbox.parameter name
         (Checkbox.base_arguments (Checkbox.bind_signature c)) = Some v →
       is_default v = false).
Proof.
  intros H.
  specialize (H Checkbox.no_arguments "label"%string (VDefault VNone)).
  discriminate H; [by do 2 constructor | reflexivity].
Qed.

(** A function given as [value] is not a sentinel: the constructor hands
    the function itself to the base initializer. *)
Example init_of_callable :
  Checkbox.value_
    (Checkbox.base_arguments (Checkbox.bind_signature Checkbox.callable_call))
  = VCallable "f".
Proof. reflexivity. Qed.

(** ** Further properties of the interpretation methods *)


(** X2: the neighbor of the neighbor of [x] is the truth value of [x]; for
    a boolean [x] it is [x] again. *)
Theorem neighbor_of_neighbor (x n : value) (self : dict) :
  returned (Checkbox.get_interpretation_neighbors x self) = Ok ([n], ∅) →
  returned (Checkbox.get_interpretation_neighbors n self)
  = Ok ([VBool (truthy x)], ∅)
  ∧ (∀ b : bool, x = VBool b →
     returned (Checkbox.get_interpretation_neighbors n self) = Ok ([x], ∅)).
Proof.
  run_method. intros Hn. injection Hn as <-.
  unfold py_not. cbn [truthy]. rewrite negb_involutive.
  split; [reflexivity|]. intros b ->. reflexivity.
Qed.

(** X3: the two methods composed, with one score per neighbor computed by
    any scoring [score_of]: the call never raises, the slot that stands
    for the neighbor holds the neighbor's score, the slot that stands for
    the original holds [None], and the receiver is unchanged. *)
Theorem neighbors_then_scores
    (score_of : value → value) (x : value) (self : dict) :
  ∃ pair : value * value,
    ('(neighbors, kwargs) ← Checkbox.get_interpretation_neighbors x;
     Checkbox.get_interpretation_scores x neighbors (score_of <$> neighbors)
       kwargs) self = (Ok pair, self)
    ∧ Checkbox.slot (negb (truthy x)) pair
      = score_of (VBool (negb (truthy x)))
    ∧ Checkbox.slot (truthy x) pair = VNone.
Proof.
  unfold Checkbox.get_interpretation_neighbors, mbind, M_bind, mret, M_ret.
  rewrite get_interpretation_scores_run. cbn. unfold py_not.
  destruct (truthy x); eexists; (split; [reflexivity|]); split; reflexivity.
Qed.

(** X4: whatever the arguments, a pair returned by
    [get_interpretation_scores] never holds two scores: one of its slots is
    [None], and both are exactly when [scores[0]] is [None]. *)
Theorem scores_never_two_slots
    (x : value) (neighbors scores : list value) (kwargs self : dict)
    (pair : value * value) :
  returned (Checkbox.get_interpretation_scores x neighbors scores kwargs self)
  = Ok pair →
  (populated pair ≤ 1)%nat
  ∧ (fst pair = VNone ∨ snd pair = VNone)
  ∧ (populated pair = 0%nat ↔ scores !! 0%nat = Some VNone).
Proof.
  rewrite get_interpretation_scores_run. unfold returned. cbn [fst].
  destruct scores as [|s rest]; [discriminate|]. cbn [lookup list_lookup].
  intros Hp. injection Hp as <-.
  destruct (truthy x); unfold populated; cbn [fst snd is_none];
    (split; [destruct (is_none s); lia|]);
    (split; [auto|]);
    (split; [|by intros [= ->]]);
    destruct s; cbn; intros; (reflexivity || lia).
Qed.

(** ** Further properties of construction *)

(** X5: every keyword argument handed to the base initializer depends only
    on the argument given under the same name: two calls that agree on a
    parameter hand the same value for it, whatever their other arguments;
    the extra keyword arguments are handed on as they are. *)
Theorem init_keeps_names_apart (c c' : Checkbox.call) (name : string) :
  name ∈ Checkbox.parameter_names →
  Checkbox.argument name c = Checkbox.argument name c' →
  Checkbox.parameter name
    (Checkbox.base_arguments (Checkbox.bind_signature c))
  = Checkbox.parameter name
      (Checkbox.base_arguments (Checkbox.bind_signature c'))
  ∧ Checkbox.kwargs (Checkbox.base_arguments (Checkbox.bind_signature c))
    = Checkbox.arg_kwargs c.
Proof.
  intros Hin Harg. split; [|reflexivity].
  each_name Hin; cbn in Harg |- *; injection Harg as ->; reflexivity.
Qed.

(** X6: a call that leaves out [container], [scale], [min_width] and
    [visible] hands the base initializer [True], [None], [160] and
    [True]. *)
Theorem init_layout_defaults (c : Checkbox.call) :
  Checkbox.arg_container c = None →
  Checkbox.arg_scale c = None →
  Checkbox.arg_min_width c = None →
  Checkbox.arg_visible c = None →
  let handed := Checkbox.base_arguments (Checkbox.bind_signature c) in
  Checkbox.container handed = VBool true
  ∧ Checkbox.scale handed = VNone
  ∧ Checkbox.min_width handed = VInt 160
  ∧ Checkbox.visible handed = VBool true.
Proof.
  intros Hc Hs Hm Hv. destruct c; cbn in *. rewrite Hc, Hs, Hm, Hv.
  repeat split.
Qed.

(** X7: an argument given for [value], [container], [scale], [min_width] or
    [visible] that is not a sentinel reaches the base initializer as it is;
    an explicit [None] is not replaced by the default. *)
Theorem init_keeps_explicit_argument
    (c : Checkbox.call) (name : string) (v : value) :
  name ∈ Checkbox.resolved_names →
  Checkbox.argument name c = Some (Some v) →
  is_default v = false →
  Checkbox.parameter name
    (Checkbox.base_arguments (Checkbox.bind_signature c)) = Some v.
Proof.
  intros Hin Harg Hv.
  each_name Hin; cbn in Harg |- *; injection Harg as ->; cbn;
    destruct v; try discriminate Hv; reflexivity.
Qed.


(** X9: the constructor assigns no field of its own: when neither base
    initializer changes the receiver, the receiver after [__init__] is the
    receiver before it. *)
Theorem init_assigns_nothing_itself
    (IOComponent_init : Checkbox.params → M unit)
    (NeighborInterpretable_init : M unit)
    (c : Checkbox.call) (self : dict) :
  (∀ (p : Checkbox.params) (s : dict),
     final_self (IOComponent_init p s) = s) →
  (∀ s : dict, final_self (NeighborInterpretable_init s) = s) →
  final_self
    (Checkbox.__init__ IOComponent_init NeighborInterpretable_init c self)
  = self.
Proof.
  intros Hbase Hnb. unfold Checkbox.__init__, mbind, M_bind.
  specialize (Hbase (Checkbox.base_arguments (Checkbox.bind_signature c))
                self).
  destruct (IOComponent_init _ self) as [[[]|e] s]; cbn in Hbase; subst s.
  - apply Hnb.
  - reflexivity.
Qed.

(** Witness of [neighbor_of_neighbor]: the neighbor of [True] is [False],
    whose neighbor is [True]. *)
Lemma neighbor_of_neighbor_witness :
  returned (Checkbox.get_interpretation_neighbors (VBool false) ∅)
  = Ok ([VBool true], ∅).
Proof.
  apply (neighbor_of_neighbor (VBool true) (VBool false) ∅). reflexivity.
Defined.

(** Witness of [scores_never_two_slots]: original [True], scores
    [[0.25; 7]]. *)
Lemma scores_never_two_slots_witness :
  (populated (VFloat 0.25%float, VNone) ≤ 1)%nat
  ∧ (fst (VFloat 0.25%float, VNone) = VNone
     ∨ snd (VFloat 0.25%float, VNone) = VNone)
  ∧ (populated (VFloat 0.25%float, VNone) = 0%nat
     ↔ [VFloat 0.25%float; VInt 7] !! 0%nat = Some VNone).
Proof.
  apply (scores_never_two_slots (VBool true) [VBool false]
           [VFloat 0.25%float; VInt 7] ∅ ∅).
  reflexivity.
Defined.

(** Witness of [init_keeps_names_apart]: [Checkbox(value=True,
    label="Agree")] and [Checkbox()] both leave [scale] out. *)
Lemma init_keeps_names_apart_witness :
  Checkbox.parameter "scale"
    (Checkbox.base_arguments (Checkbox.bind_signature Checkbox.agree_call))
  = Checkbox.parameter "scale"
      (Checkbox.base_arguments
         (Checkbox.bind_signature Checkbox.no_arguments))
  ∧ Checkbox.kwargs
      (Checkbox.base_arguments (Checkbox.bind_signature Checkbox.agree_call))
    = Checkbox.arg_kwargs Checkbox.agree_call.
Proof.
  apply (init_keeps_names_apart Checkbox.agree_call Checkbox.no_arguments
           "scale").
  - repeat constructor.
  - reflexivity.
Defined.

(** Witness of [init_layout_defaults]: [Checkbox(value=True,
    label="Agree")]. *)
Lemma init_layout_defaults_witness :
  Checkbox.container
    (Checkbox.base_arguments (Checkbox.bind_signature Checkbox.agree_call))
  = VBool true
  ∧ Checkbox.scale
      (Checkbox.base_arguments (Checkbox.bind_signature Checkbox.agree_call))
    = VNone
  ∧ Checkbox.min_width
      (Checkbox.base_arguments (Checkbox.bind_signature Checkbox.agree_call))
    = VInt 160
  ∧ Checkbox.visible
      (Checkbox.base_arguments (Checkbox.bind_signature Checkbox.agree_call))
    = VBool true.
Proof.
  apply (init_layout_defaults Checkbox.agree_call); reflexivity.
Defined.

(** Witness of [init_keeps_explicit_argument]: [Checkbox(value=None)] hands
    [None], not [False]. *)
Lemma init_keeps_explicit_argument_witness :
  Checkbox.parameter "value"
    (Checkbox.base_arguments (Checkbox.bind_signature Checkbox.none_call))
  = Some VNone.
Proof.
  apply (init_keeps_explicit_argument Checkbox.none_call "value" VNone).
  - constructor.
  - reflexivity.
  - reflexivity.
Defined.


(** Witness of [init_assigns_nothing_itself]: base initializers that do
    nothing. *)
Lemma init_assigns_nothing_itself_witness :
  final_self
    (Checkbox.__init__ (λ _, mret tt) (mret tt) Checkbox.agree_call
       {[ "value"%string := VBool false ]})
  = {[ "value"%string := VBool false ]}.
Proof.
  apply (init_assigns_nothing_itself (λ _, mret tt) (mret tt)
           Checkbox.agree_call).
  - intros p s. reflexivity.
  - intros s. reflexivity.
Defined.
